(** * Financia API: the HTTP handlers of [main.py]

    A shallow embedding of the FastAPI application: the process
    environment is a finite map, every handler is a computation that
    emits log records and either returns a value or raises an
    [HTTPException], and the framework's conversion of a handler outcome
    into an HTTP response is a function of that outcome, which fails
    where the framework cannot encode what the handler returned. *)

From Stdlib Require Import ZArith Ascii.
From stdpp Require Import base option list strings gmap.

Set Warnings "-register-all".

Local Open Scope Z_scope.
Local Open Scope string_scope.

(** ** Bytes and text *)

Module Utf8.

(** The value of a byte. *)
Definition code (a : ascii) : Z := Z.of_N (N_of_ascii a).

Definition in_range (lo hi b : Z) : bool := (lo <=? b)%Z && (b <=? hi)%Z.

(** A continuation byte, [0x80..0xBF]. *)
Definition continuation (a : ascii) : bool := in_range 0x80 0xBF (code a).

(** Whether a byte string is well-formed UTF-8, as the strict decoder
    reads it: the shortest form only, no surrogate code points, nothing
    above U+10FFFF, no truncated sequence. *)
Fixpoint well_formed (s : string) : bool :=
  match s with
  | EmptyString => true
  | String a s1 =>
      let lead := code a in
      if in_range 0x00 0x7F lead then well_formed s1
      else if in_range 0xC2 0xDF lead then
        match s1 with
        | String b s2 => continuation b && well_formed s2
        | _ => false
        end
      else if in_range 0xE0 0xEF lead then
        match s1 with
        | String b (String c s3) =>
            in_range (if (lead =? 0xE0)%Z then 0xA0 else 0x80)
                     (if (lead =? 0xED)%Z then 0x9F else 0xBF) (code b)
            && continuation c && well_formed s3
        | _ => false
        end
      else if in_range 0xF0 0xF4 lead then
        match s1 with
        | String b (String c (String d s4)) =>
            in_range (if (lead =? 0xF0)%Z then 0x90 else 0x80)
                     (if (lead =? 0xF4)%Z then 0x8F else 0xBF) (code b)
            && continuation c && continuation d && well_formed s4
        | _ => false
        end
      else false
  end.

End Utf8.

(** ** Python values and conventions *)

Module Py.

(** The objects the handlers build: strings and dict literals.  A dict
    literal keeps its items in the order they are written.  A string is
    either text ([Str]: a literal, a query value, the text of an
    exception) or the value of an environment variable ([FsStr]), which
    the interpreter decodes from the bytes of the process environment
    and which keeps, as escapes, the bytes that are not UTF-8 text; the
    bytes are what [FsStr] holds.  UTF-8 is taken as the interpreter's
    filesystem encoding. *)
Inductive value : Type :=
| Str (s : string)
| FsStr (raw : string)
| Dict (items : list (string * value)).

(** [d[key]] on the items of a dict literal. *)
Fixpoint get (key : string) (items : list (string * value)) : option value :=
  match items with
  | [] => None
  | (k, v) :: rest => if bool_decide (k = key) then Some v else get key rest
  end.

(** [d[key]] on a value: only a dict has items. *)
Definition field (key : string) (v : value) : option value :=
  match v with
  | Dict items => get key items
  | Str _ | FsStr _ => None
  end.

(** Whether [json.dumps(v, ensure_ascii=False).encode("utf-8")] succeeds:
    text encodes, and the value of an environment variable encodes when
    its bytes were well-formed UTF-8, so that no escape is left in it. *)
Fixpoint encodable (v : value) : bool :=
  match v with
  | Str _ => true
  | FsStr raw => Utf8.well_formed raw
  | Dict items =>
      (fix all (l : list (string * value)) : bool :=
         match l with
         | [] => true
         | (_, item) :: rest => encodable item && all rest
         end) items
  end.

(** Truth value of an [Optional[str]]: [None] and [""] are false. *)
Definition truthy (o : option string) : bool :=
  match o with
  | None => false
  | Some s => negb (bool_decide (s = ""))
  end.

(** [==] on two [Optional[str]] values. *)
Definition eq (a b : option string) : bool := bool_decide (a = b).

(** [{x}] in an f-string, for an [Optional[str]] and for a [bool]. *)
Definition fmt (o : option string) : string := default "None" o.
Definition fmt_bool (b : bool) : string := if b then "True" else "False".

(** An exception instance, as far as the handlers look at it: its
    class name and what [str(e)] gives. *)
Record exn : Type := Exn { exn_class : string; exn_str : string }.

Definition str (e : exn) : string := exn_str e.

End Py.

(** ** The process environment *)

(** [os.getenv(name)] and [os.getenv(name, default)]. *)
Definition getenv (environ : gmap string string) (name : string) : option string :=
  environ !! name.

Definition getenv_or (environ : gmap string string) (name dflt : string) : Py.value :=
  match environ !! name with
  | Some raw => Py.FsStr raw
  | None => Py.Str dflt
  end.

(** ** Logging *)

Module Logging.

Inductive level : Type := DEBUG | INFO | WARNING | ERROR | CRITICAL.

Definition levelno (l : level) : Z :=
  match l with
  | DEBUG => 10 | INFO => 20 | WARNING => 30 | ERROR => 40 | CRITICAL => 50
  end.

(** A call on [logger]: the level, the formatted message and the
    exception attached by [exc_info=True]. *)
Record record : Type := Record_ {
  rec_level : level;
  rec_msg : string;
  rec_exc_info : option Py.exn
}.

(** What reaches the handler installed by [logging.basicConfig(level=...)]:
    the records at or above the root logger's level, in order. *)
Definition emitted (root_level : Z) (rs : list record) : list record :=
  filter (λ r, (root_level ≤ levelno (rec_level r))%Z) rs.

End Logging.

(** ** Handler computations *)

(** [raise HTTPException(status_code=..., detail=...)]. *)
Record HTTPException : Type := mkHTTPException {
  exc_status_code : Z;
  exc_detail : string
}.

(** What a path operation hands back to the framework. *)
Inductive returned : Type :=
| ReturnDict (d : Py.value)
| PlainTextResponse (content : option string) (status_code : Z).

(** A handler run: the log records it produced, in order, and how it
    ended. *)
Definition Handler (A : Type) : Type := list Logging.record * (HTTPException + A).

Definition ret {A} (a : A) : Handler A := ([], inr a).

Definition raise {A} (e : HTTPException) : Handler A := ([], inl e).

Definition bind {A B} (m : Handler A) (k : A → Handler B) : Handler B :=
  match m with
  | (l, inl e) => (l, inl e)
  | (l, inr a) => let '(l', r) := k a in ((l ++ l')%list, r)
  end.

Notation "m ;;; k" := (bind m (λ _, k))
  (at level 100, k at level 200, right associativity, only parsing).

Definition log (lvl : Logging.level) (msg : string) (exc : option Py.exn) : Handler unit :=
  ([Logging.Record_ lvl msg exc], inr tt).

Definition logger_info (msg : string) : Handler unit := log Logging.INFO msg None.
Definition logger_warning (msg : string) : Handler unit := log Logging.WARNING msg None.
Definition logger_error (msg : string) : Handler unit := log Logging.ERROR msg None.

(** ** HTTP responses *)

Inductive content : Type :=
| Text (s : string)
| Json (v : Py.value).

Record Response : Type := mkResponse {
  status_code : Z;
  media_type : string;
  body : content
}.

(** What the server sends when rendering a response raises. *)
Definition internal_server_error : Response :=
  mkResponse 500 "text/plain" (Text "Internal Server Error").

(** The framework's part: a returned dict is serialised as JSON with
    status 200, unless it holds a string that cannot be encoded, in
    which case rendering raises and the server answers 500; a response
    object is sent as it is (a [None] content renders as the empty
    body), and an [HTTPException] becomes a JSON object holding its
    detail under the exception's status. *)
Definition respond (r : HTTPException + returned) : Response :=
  match r with
  | inr (ReturnDict d) =>
      if Py.encodable d then mkResponse 200 "application/json" (Json d)
      else internal_server_error
  | inr (PlainTextResponse c st) => mkResponse st "text/plain" (Text (default "" c))
  | inl e =>
      mkResponse (exc_status_code e) "application/json"
        (Json (Py.Dict [("detail", Py.Str (exc_detail e))]))
  end.

(** ** Path operations *)

(** [GET /] *)
Definition root (environ : gmap string string) : Handler returned :=
  ret (ReturnDict (Py.Dict [
    ("name", Py.Str "Financia API");
    ("version", Py.Str "0.1.0");
    ("status", Py.Str "running");
    ("environment", getenv_or environ "ENVIRONMENT" "unknown")
  ])).

(** [GET /health] *)
Definition health_check (environ : gmap string string) : Handler returned :=
  ret (ReturnDict (Py.Dict [
    ("status", Py.Str "healthy");
    ("service", Py.Str "financia-api");
    ("environment", getenv_or environ "ENVIRONMENT" "unknown")
  ])).

(** [GET /webhook] *)
Definition verify_webhook (environ : gmap string string)
    (hub_mode hub_verify_token hub_challenge : option string) : Handler returned :=
  logger_info ("Webhook verification request: mode=" +:+ Py.fmt hub_mode
               +:+ ", token_provided=" +:+ Py.fmt_bool (Py.truthy hub_verify_token)) ;;;
  let expected_token := getenv environ "WHATSAPP_WEBHOOK_VERIFY_TOKEN" in
  if negb (Py.truthy expected_token) then
    logger_error "WHATSAPP_WEBHOOK_VERIFY_TOKEN not configured" ;;;
    raise (mkHTTPException 500 "Webhook token not configured")
  else if Py.eq hub_mode (Some "subscribe") && Py.eq hub_verify_token expected_token then
    logger_info "Webhook verification successful" ;;;
    ret (PlainTextResponse hub_challenge 200)
  else
    logger_warning ("Webhook verification failed: mode=" +:+ Py.fmt hub_mode
                    +:+ ", token_match="
                    +:+ Py.fmt_bool (Py.eq hub_verify_token expected_token)) ;;;
    raise (mkHTTPException 403 "Verification failed").

(** [GET /readiness] *)
Definition readiness_check : Handler returned :=
  ret (ReturnDict (Py.Dict [
    ("status", Py.Str "ready");
    ("checks", Py.Dict [
      ("api", Py.Str "ok");
      ("secrets", Py.Str "not_checked");
      ("sheets", Py.Str "not_checked");
      ("gemini", Py.Str "not_checked")
    ])
  ])).

(** ** Requests and endpoints *)

(** The query string, one value per name.  The three parameters of
    [verify_webhook] are declared [Query(None, alias=...)]: a name that
    is absent binds [None]. *)
Definition query_param (query : gmap string string) (alias : string) : option string :=
  query !! alias.

(** An endpoint run: the response sent and the log records produced. *)
Definition serve (h : Handler returned) : Response * list Logging.record :=
  (respond h.2, h.1).

Definition get_root (environ : gmap string string) := serve (root environ).
Definition get_health (environ : gmap string string) := serve (health_check environ).
Definition get_readiness := serve readiness_check.

Definition get_webhook (environ query : gmap string string) :=
  serve (verify_webhook environ
           (query_param query "hub.mode")
           (query_param query "hub.verify_token")
           (query_param query "hub.challenge")).

Inductive method : Type := GET | POST.

Record Request : Type := mkRequest {
  req_method : method;
  req_path : string;
  req_query : gmap string string;
  req_body : string
}.

Section Intake.

(** [await request.json()] decodes the request body with the JSON decoder
    of the Python library.  The decoder is not part of the application:
    the handler is given for any decoder that either yields an object or
    raises an [Exception], and any rendering [{body}] of a decoded object. *)
Variable PyObject : Type.
Variable json_loads : string → Py.exn + PyObject.
Variable format_object : PyObject → string.

Definition request_json (request : Request) : Py.exn + PyObject :=
  json_loads (req_body request).

(** [POST /webhook] *)
Definition receive_webhook (request : Request) : Handler returned :=
  match request_json request with
  | inr body =>
      logger_info ("Received webhook: " +:+ format_object body) ;;;
      ret (ReturnDict (Py.Dict [("status", Py.Str "received")]))
  | inl e =>
      log Logging.ERROR ("Error processing webhook: " +:+ Py.str e) (Some e) ;;;
      ret (ReturnDict (Py.Dict [("status", Py.Str "error"); ("message", Py.Str (Py.str e))]))
  end.

Definition post_webhook (request : Request) := serve (receive_webhook request).

(** The five path operations that [main.py] declares on [app], by method
    and path.  [None]: the request is for none of them; what the
    framework does with it (its own documentation routes, its answers
    for an unknown path or method) is not part of this file. *)
Definition path_operation (environ : gmap string string) (request : Request)
    : option (Response * list Logging.record) :=
  let path := req_path request in
  match req_method request with
  | GET =>
      if bool_decide (path = "/") then Some (get_root environ)
      else if bool_decide (path = "/health") then Some (get_health environ)
      else if bool_decide (path = "/webhook") then Some (get_webhook environ (req_query request))
      else if bool_decide (path = "/readiness") then Some get_readiness
      else None
  | POST =>
      if bool_decide (path = "/webhook") then Some (post_webhook request) else None
  end.

End Intake.

Arguments request_json {PyObject} json_loads request.
Arguments receive_webhook {PyObject} json_loads format_object request.
Arguments post_webhook {PyObject} json_loads format_object request.
Arguments path_operation {PyObject} json_loads format_object environ request.

(** ** A decoder to run the intake on *)

Module Sample.

(** Five JSON documents and the objects they decode to. *)
Inductive object : Type := ONone | OTrue | OFalse | OEmptyDict | OEmptyList.

Definition format (o : object) : string :=
  match o with
  | ONone => "None" | OTrue => "True" | OFalse => "False"
  | OEmptyDict => "{}" | OEmptyList => "[]"
  end.

(** A decoder that knows these five documents and raises on every other
    body.  It instantiates the decoder of the intake section where a
    handler is run on a concrete request. *)
Definition loads (body : string) : Py.exn + object :=
  if bool_decide (body = "null") then inr ONone
  else if bool_decide (body = "true") then inr OTrue
  else if bool_decide (body = "false") then inr OFalse
  else if bool_decide (body = "{}") then inr OEmptyDict
  else if bool_decide (body = "[]") then inr OEmptyList
  else inl (Py.Exn "JSONDecodeError" "Expecting value: line 1 column 1 (char 0)").

Definition post (body : string) : Request := mkRequest POST "/webhook" ∅ body.

End Sample.

(** The environment and the query of the documented example. *)
Definition example_environ : gmap string string :=
  {[ "WHATSAPP_WEBHOOK_VERIFY_TOKEN" := "abc123" ]}.

Definition example_query : gmap string string :=
  {[ "hub.mode" := "subscribe"; "hub.verify_token" := "abc123"; "hub.challenge" := "999" ]}.

(** The documented example with the token replaced by a wrong one. *)
Definition wrong_token_query : gmap string string :=
  <[ "hub.verify_token" := "wrong" ]> example_query.

(** A second configuration and a second wrong guess, for runs that
    differ from the example in both token strings. *)
Definition other_environ : gmap string string :=
  {[ "WHATSAPP_WEBHOOK_VERIFY_TOKEN" := "s3cret" ]}.

Definition other_wrong_query : gmap string string :=
  <[ "hub.verify_token" := "guess" ]> example_query.

(** A request with no query string at all. *)
Definition empty_query : gmap string string := ∅.

(** A query that carries the mode and the token but no challenge. *)
Definition query_without_challenge : gmap string string :=
  {[ "hub.mode" := "subscribe"; "hub.verify_token" := "abc123" ]}.


(** An environment with no variable set. *)
Definition empty_environ : gmap string string := ∅.


Definition staging_environ : gmap string string :=
  <[ "ENVIRONMENT" := "staging" ]> example_environ.

(** The documented example with one more query parameter. *)
Definition tagged_query : gmap string string :=
  <[ "utm_source" := "probe" ]> example_query.

(** The documented example with an empty token. *)
Definition empty_token_query : gmap string string :=
  <[ "hub.verify_token" := "" ]> example_query.


(** ** Reading a response *)

(** A member of the JSON object a response carries. *)
Definition json_field (key : string) (r : Response) : option Py.value :=
  match body r with
  | Json v => Py.field key v
  | Text _ => None
  end.

(** The entry of one sub-check in the readiness report. *)
Definition readiness_check_of (label : string) : option Py.value :=
  json_field "checks" get_readiness.1 ≫= Py.field label.

Definition TOKEN_VAR : string := "WHATSAPP_WEBHOOK_VERIFY_TOKEN".

(** The two fixed failure responses of the verification endpoint. *)
Definition not_configured_response : Response :=
  mkResponse 500 "application/json"
    (Json (Py.Dict [("detail", Py.Str "Webhook token not configured")])).

Definition verification_failed_response : Response :=
  mkResponse 403 "application/json"
    (Json (Py.Dict [("detail", Py.Str "Verification failed")])).

(** * Properties *)

(** ** Truth values and comparisons *)

(** The UTF-8 check on a few byte strings: plain text, a two-byte and a
    four-byte character are well formed; a stray [0xFF], an overlong
    form, an encoded surrogate and a truncated sequence are not. *)
Example well_formed_samples :
  Utf8.well_formed "unknown" = true
  ∧ Utf8.well_formed "" = true
  ∧ Utf8.well_formed (String (ascii_of_N 0xC3) (String (ascii_of_N 0xA9) "")) = true
  ∧ Utf8.well_formed
      (String (ascii_of_N 0xF0) (String (ascii_of_N 0x9F)
         (String (ascii_of_N 0x98) (String (ascii_of_N 0x80) "")))) = true
  ∧ Utf8.well_formed (String (ascii_of_N 0xFF) "") = false
  ∧ Utf8.well_formed (String (ascii_of_N 0xC0) (String (ascii_of_N 0x80) "")) = false
  ∧ Utf8.well_formed
      (String (ascii_of_N 0xED) (String (ascii_of_N 0xA0) (String (ascii_of_N 0x80) "")))
    = false
  ∧ Utf8.well_formed (String (ascii_of_N 0xE2) (String (ascii_of_N 0x82) "")) = false.
Proof. repeat split. Qed.

Lemma truthy_nonempty (T : string) : T ≠ "" → Py.truthy (Some T) = true.
Proof.
  intros HT. unfold Py.truthy.
  rewrite bool_decide_eq_false_2; [reflexivity | exact HT].
Qed.

Lemma truthy_false_iff (o : option string) :
  Py.truthy o = false ↔ o = None ∨ o = Some "".
Proof.
  destruct o as [s|]; simpl.
  - rewrite negb_false_iff, bool_decide_eq_true. split.
    + intros ->. by right.
    + intros [?|[= ->]]; done.
  - split; [by left | done].
Qed.

Lemma py_eq_true (a b : option string) : Py.eq a b = true ↔ a = b.
Proof. unfold Py.eq. apply bool_decide_eq_true. Qed.

Lemma py_eq_false (a b : option string) : Py.eq a b = false ↔ a ≠ b.
Proof. unfold Py.eq. apply bool_decide_eq_false. Qed.

(** ** The three ways a verification run ends *)

Lemma verify_webhook_not_configured environ mode token challenge :
  Py.truthy (getenv environ TOKEN_VAR) = false →
  verify_webhook environ mode token challenge =
    ([Logging.Record_ Logging.INFO
        ("Webhook verification request: mode=" +:+ Py.fmt mode
         +:+ ", token_provided=" +:+ Py.fmt_bool (Py.truthy token)) None;
      Logging.Record_ Logging.ERROR "WHATSAPP_WEBHOOK_VERIFY_TOKEN not configured" None],
     inl (mkHTTPException 500 "Webhook token not configured")).
Proof.
  unfold TOKEN_VAR. intros Hcfg. unfold verify_webhook.
  rewrite Hcfg. reflexivity.
Qed.

Lemma verify_webhook_accepted environ mode token challenge :
  Py.truthy (getenv environ TOKEN_VAR) = true →
  mode = Some "subscribe" →
  token = getenv environ TOKEN_VAR →
  verify_webhook environ mode token challenge =
    ([Logging.Record_ Logging.INFO
        ("Webhook verification request: mode=" +:+ Py.fmt mode
         +:+ ", token_provided=" +:+ Py.fmt_bool (Py.truthy token)) None;
      Logging.Record_ Logging.INFO "Webhook verification successful" None],
     inr (PlainTextResponse challenge 200)).
Proof.
  unfold TOKEN_VAR. intros Hcfg -> ->. unfold verify_webhook.
  rewrite Hcfg. simpl negb. cbv iota.
  assert (Hm : Py.eq (Some "subscribe") (Some "subscribe") = true) by by apply py_eq_true.
  assert (Ht : ∀ o : option string, Py.eq o o = true) by (intros; by apply py_eq_true).
  rewrite Hm, Ht. reflexivity.
Qed.

Lemma verify_webhook_rejected environ mode token challenge :
  Py.truthy (getenv environ TOKEN_VAR) = true →
  mode ≠ Some "subscribe" ∨ token ≠ getenv environ TOKEN_VAR →
  verify_webhook environ mode token challenge =
    ([Logging.Record_ Logging.INFO
        ("Webhook verification request: mode=" +:+ Py.fmt mode
         +:+ ", token_provided=" +:+ Py.fmt_bool (Py.truthy token)) None;
      Logging.Record_ Logging.WARNING
        ("Webhook verification failed: mode=" +:+ Py.fmt mode +:+ ", token_match="
         +:+ Py.fmt_bool (Py.eq token (getenv environ TOKEN_VAR))) None],
     inl (mkHTTPException 403 "Verification failed")).
Proof.
  unfold TOKEN_VAR. intros Hcfg Hne. unfold verify_webhook.
  rewrite Hcfg. simpl negb. cbv iota.
  assert (Hc : Py.eq mode (Some "subscribe")
               && Py.eq token (getenv environ "WHATSAPP_WEBHOOK_VERIFY_TOKEN") = false).
  { apply andb_false_iff. destruct Hne as [Hm|Ht]; [left|right]; by apply py_eq_false. }
  rewrite Hc. reflexivity.
Qed.

(** The records of a verification run, read off the three branches: the
    tokens enter only through [Py.truthy] and [Py.eq]. *)
Lemma verify_webhook_log environ mode token challenge :
  (verify_webhook environ mode token challenge).1 =
    Logging.Record_ Logging.INFO
      ("Webhook verification request: mode=" +:+ Py.fmt mode
       +:+ ", token_provided=" +:+ Py.fmt_bool (Py.truthy token)) None ::
    (if negb (Py.truthy (getenv environ TOKEN_VAR)) then
       [Logging.Record_ Logging.ERROR "WHATSAPP_WEBHOOK_VERIFY_TOKEN not configured" None]
     else if Py.eq mode (Some "subscribe") && Py.eq token (getenv environ TOKEN_VAR) then
       [Logging.Record_ Logging.INFO "Webhook verification successful" None]
     else
       [Logging.Record_ Logging.WARNING
          ("Webhook verification failed: mode=" +:+ Py.fmt mode +:+ ", token_match="
           +:+ Py.fmt_bool (Py.eq token (getenv environ TOKEN_VAR))) None]).
Proof.
  unfold TOKEN_VAR, verify_webhook.
  destruct (negb (Py.truthy (getenv environ "WHATSAPP_WEBHOOK_VERIFY_TOKEN"))); [reflexivity|].
  destruct (Py.eq mode (Some "subscribe")
            && Py.eq token (getenv environ "WHATSAPP_WEBHOOK_VERIFY_TOKEN")); reflexivity.
Qed.

Lemma get_webhook_unfold environ query :
  get_webhook environ query =
    serve (verify_webhook environ (query !! "hub.mode") (query !! "hub.verify_token")
             (query !! "hub.challenge")).
Proof. reflexivity. Qed.

(** ** [GET /webhook] *)

(** C1: with a non-empty expected token [T] configured, a request whose
    [hub.mode] is ["subscribe"] and whose [hub.verify_token] is exactly
    [T] is answered with status 200 and the supplied [hub.challenge] as
    the plain-text body, not wrapped in JSON. *)
Theorem webhook_verification_echoes_challenge
    (environ query : gmap string string) (T challenge : string) :
  getenv environ TOKEN_VAR = Some T →
  T ≠ "" →
  query !! "hub.mode" = Some "subscribe" →
  query !! "hub.verify_token" = Some T →
  query !! "hub.challenge" = Some challenge →
  (get_webhook environ query).1 = mkResponse 200 "text/plain" (Text challenge).
Proof.
  intros Hexp HT Hmode Htok Hch.
  rewrite get_webhook_unfold, Hch.
  rewrite verify_webhook_accepted.
  - reflexivity.
  - rewrite Hexp. by apply truthy_nonempty.
  - exact Hmode.
  - by rewrite Hexp.
Qed.

Lemma webhook_verification_echoes_challenge_example :
  (get_webhook example_environ example_query).1 = mkResponse 200 "text/plain" (Text "999").
Proof.
  apply (webhook_verification_echoes_challenge example_environ example_query "abc123" "999");
    [reflexivity | discriminate | reflexivity | reflexivity | reflexivity].
Defined.

(** C3: when the expected token is unset or empty, every verification
    request is answered with status 500 and one fixed message, whatever
    mode, token and challenge it carries; the response is the same for
    all of them, so no token value can appear in it. *)
Theorem webhook_without_expected_token_is_500 (environ query : gmap string string) :
  getenv environ TOKEN_VAR = None ∨ getenv environ TOKEN_VAR = Some "" →
  (get_webhook environ query).1 = not_configured_response
  ∧ status_code (get_webhook environ query).1 = 500
  ∧ json_field "detail" (get_webhook environ query).1
    = Some (Py.Str "Webhook token not configured").
Proof.
  intros Hcfg. apply truthy_false_iff in Hcfg.
  rewrite get_webhook_unfold, verify_webhook_not_configured by exact Hcfg.
  repeat split.
Qed.

Lemma webhook_without_expected_token_is_500_example :
  (get_webhook ∅ example_query).1 = not_configured_response
  ∧ status_code (get_webhook ∅ example_query).1 = 500
  ∧ json_field "detail" (get_webhook ∅ example_query).1
    = Some (Py.Str "Webhook token not configured").
Proof.
  apply (webhook_without_expected_token_is_500 ∅ example_query).
  left. reflexivity.
Defined.

(** C4: with a non-empty expected token [T] configured, a request whose
    [hub.verify_token] is not [T], or whose [hub.mode] is not
    ["subscribe"], is answered with status 403 and one fixed message,
    whatever its [hub.challenge]. *)
Theorem webhook_mismatch_is_403 (environ query : gmap string string) (T : string) :
  getenv environ TOKEN_VAR = Some T →
  T ≠ "" →
  query !! "hub.verify_token" ≠ Some T ∨ query !! "hub.mode" ≠ Some "subscribe" →
  (get_webhook environ query).1 = verification_failed_response
  ∧ status_code (get_webhook environ query).1 = 403
  ∧ json_field "detail" (get_webhook environ query).1 = Some (Py.Str "Verification failed").
Proof.
  intros Hexp HT Hne.
  rewrite get_webhook_unfold, verify_webhook_rejected.
  - repeat split.
  - rewrite Hexp. by apply truthy_nonempty.
  - rewrite Hexp. tauto.
Qed.

Lemma webhook_mismatch_is_403_example :
  (get_webhook example_environ wrong_token_query).1 = verification_failed_response
  ∧ status_code (get_webhook example_environ wrong_token_query).1 = 403
  ∧ json_field "detail" (get_webhook example_environ wrong_token_query).1
    = Some (Py.Str "Verification failed").
Proof.
  apply (webhook_mismatch_is_403 example_environ wrong_token_query "abc123");
    [reflexivity | discriminate | left; vm_compute; discriminate].
Defined.

(** C8, as stated, fails: the log output is not a function of the mode
    and the two booleans alone.  With the same mode, a token supplied
    in both runs and matching in neither, a run without an expected
    token writes the error record and a run with one writes the warning
    record. *)
Lemma webhook_log_depends_on_configuration :
  ¬ (∀ (environ1 environ2 query1 query2 : gmap string string) (root_level : Z),
       query1 !! "hub.mode" = query2 !! "hub.mode" →
       Py.truthy (query1 !! "hub.verify_token") = Py.truthy (query2 !! "hub.verify_token") →
       Py.eq (query1 !! "hub.verify_token") (getenv environ1 TOKEN_VAR)
         = Py.eq (query2 !! "hub.verify_token") (getenv environ2 TOKEN_VAR) →
       Logging.emitted root_level (get_webhook environ1 query1).2
         = Logging.emitted root_level (get_webhook environ2 query2).2).
Proof.
  intros H.
  specialize (H empty_environ example_environ wrong_token_query wrong_token_query 20).
  assert (Hruns : Logging.emitted 20 (get_webhook empty_environ wrong_token_query).2
                  ≠ Logging.emitted 20 (get_webhook example_environ wrong_token_query).2)
    by (vm_compute; discriminate).
  apply Hruns, H; reflexivity.
Qed.

(** C8, amended: the log output of a verification run does not depend on
    the token strings.  Two runs that agree on the mode, on whether a
    token was supplied, on whether an expected token is configured and
    on whether the supplied token matched produce the same log output,
    at every level the root logger may be set to, whatever the expected
    and the supplied tokens are. *)
Theorem webhook_log_independent_of_tokens
    (environ1 environ2 query1 query2 : gmap string string) (root_level : Z) :
  query1 !! "hub.mode" = query2 !! "hub.mode" →
  Py.truthy (query1 !! "hub.verify_token") = Py.truthy (query2 !! "hub.verify_token") →
  Py.truthy (getenv environ1 TOKEN_VAR) = Py.truthy (getenv environ2 TOKEN_VAR) →
  Py.eq (query1 !! "hub.verify_token") (getenv environ1 TOKEN_VAR)
    = Py.eq (query2 !! "hub.verify_token") (getenv environ2 TOKEN_VAR) →
  Logging.emitted root_level (get_webhook environ1 query1).2
    = Logging.emitted root_level (get_webhook environ2 query2).2.
Proof.
  intros Hmode Hprov Hcfg Hmatch.
  rewrite !get_webhook_unfold. unfold serve. cbn [snd].
  rewrite !verify_webhook_log.
  rewrite Hmode, Hprov, Hcfg, Hmatch. reflexivity.
Qed.

Lemma webhook_log_independent_of_tokens_example :
  Logging.emitted 20 (get_webhook example_environ wrong_token_query).2
    = Logging.emitted 20 (get_webhook other_environ other_wrong_query).2.
Proof.
  apply (webhook_log_independent_of_tokens
           example_environ other_environ wrong_token_query other_wrong_query 20);
    reflexivity.
Defined.

(** C9, as stated, fails: a request that lacks only [hub.challenge] but
    carries the right mode and token is not answered with 403. *)
Lemma missing_challenge_is_not_403 :
  ¬ (∀ (environ query : gmap string string) (T : string),
       getenv environ TOKEN_VAR = Some T →
       T ≠ "" →
       query !! "hub.mode" = None ∨ query !! "hub.verify_token" = None
         ∨ query !! "hub.challenge" = None →
       status_code (get_webhook environ query).1 = 403).
Proof.
  intros H.
  specialize (H example_environ query_without_challenge "abc123").
  assert (Hrun : status_code (get_webhook example_environ query_without_challenge).1 = 200)
    by reflexivity.
  rewrite H in Hrun; [discriminate | reflexivity | discriminate | ].
  right. right. reflexivity.
Qed.

(** C9, amended: the three query parameters are optional, so with a
    non-empty expected token configured every request is answered by the
    handler itself, with 200 or 403 and never a validation error, and a
    request that lacks [hub.mode] or [hub.verify_token] is answered with
    the 403 verification failure, whatever else it carries. *)
Theorem webhook_missing_parameters
    (environ query : gmap string string) (T : string) :
  getenv environ TOKEN_VAR = Some T →
  T ≠ "" →
  (status_code (get_webhook environ query).1 = 200
   ∨ status_code (get_webhook environ query).1 = 403)
  ∧ (query !! "hub.mode" = None ∨ query !! "hub.verify_token" = None →
     (get_webhook environ query).1 = verification_failed_response).
Proof.
  intros Hexp HT.
  assert (Hcfg : Py.truthy (getenv environ TOKEN_VAR) = true)
    by (rewrite Hexp; by apply truthy_nonempty).
  split.
  - rewrite get_webhook_unfold.
    destruct (decide (query !! "hub.mode" = Some "subscribe")) as [Hm|Hm];
      [destruct (decide (query !! "hub.verify_token" = getenv environ TOKEN_VAR)) as [Ht|Ht]|].
    + left. by rewrite verify_webhook_accepted.
    + right. rewrite verify_webhook_rejected; [done | done | by right].
    + right. rewrite verify_webhook_rejected; [done | done | by left].
  - intros Hmiss.
    rewrite get_webhook_unfold, verify_webhook_rejected; [done | done |].
    rewrite Hexp. destruct Hmiss as [-> | ->]; [by left | by right].
Qed.

Lemma webhook_missing_parameters_example :
  (status_code (get_webhook example_environ empty_query).1 = 200
   ∨ status_code (get_webhook example_environ empty_query).1 = 403)
  ∧ (get_webhook example_environ empty_query).1 = verification_failed_response.
Proof.
  destruct (webhook_missing_parameters example_environ empty_query "abc123")
    as [Hstatus Hmissing]; [reflexivity | discriminate |].
  split; [exact Hstatus | apply Hmissing; left; reflexivity].
Defined.

(** ** [GET /], [GET /health] and [GET /readiness] *)

(** C6, as stated, fails: the [api] sub-check is reported as ["ok"], not
    as not performed. *)
Lemma readiness_api_check_is_ok :
  ¬ (∀ label : string,
       label ∈ ["api"; "secrets"; "sheets"; "gemini"] →
       readiness_check_of label = Some (Py.Str "not_checked")).
Proof.
  intros H. specialize (H "api").
  assert (Hapi : readiness_check_of "api" = Some (Py.Str "ok")) by reflexivity.
  rewrite H in Hapi; [discriminate | apply list_elem_of_here].
Qed.

(** C6, amended: the readiness probe answers 200 with the fixed status
    ["ready"] and the four sub-check labels [api], [secrets], [sheets]
    and [gemini]; [api] is reported as ["ok"] and the other three as
    ["not_checked"]. *)
Theorem readiness_report :
  get_readiness.1 =
    mkResponse 200 "application/json"
      (Json (Py.Dict [
         ("status", Py.Str "ready");
         ("checks", Py.Dict [
            ("api", Py.Str "ok");
            ("secrets", Py.Str "not_checked");
            ("sheets", Py.Str "not_checked");
            ("gemini", Py.Str "not_checked")])]))
  ∧ json_field "status" get_readiness.1 = Some (Py.Str "ready")
  ∧ readiness_check_of "api" = Some (Py.Str "ok")
  ∧ Forall (λ label, readiness_check_of label = Some (Py.Str "not_checked"))
      ["secrets"; "sheets"; "gemini"]
  ∧ (∀ label : string,
       label ∉ ["api"; "secrets"; "sheets"; "gemini"] → readiness_check_of label = None).
Proof.
  split; [reflexivity|]. split; [reflexivity|]. split; [reflexivity|]. split.
  - repeat constructor.
  - intros label Hnot.
    rewrite !not_elem_of_cons in Hnot. destruct Hnot as (H1 & H2 & H3 & H4 & _).
    change (readiness_check_of label)
      with (Py.get label [("api", Py.Str "ok"); ("secrets", Py.Str "not_checked");
                          ("sheets", Py.Str "not_checked"); ("gemini", Py.Str "not_checked")]).
    cbn [Py.get].
    rewrite !bool_decide_eq_false_2 by congruence. reflexivity.
Qed.







(** ** [POST /webhook] *)

Section IntakeFacts.

Context {PyObject : Type}.
Variable json_loads : string → Py.exn + PyObject.
Variable format_object : PyObject → string.

(** The two ways an intake run ends, one per branch of the [try]. *)
Lemma receive_webhook_decoded request payload :
  request_json json_loads request = inr payload →
  receive_webhook json_loads format_object request =
    ([Logging.Record_ Logging.INFO ("Received webhook: " +:+ format_object payload) None],
     inr (ReturnDict (Py.Dict [("status", Py.Str "received")]))).
Proof. intros Hdec. unfold receive_webhook. rewrite Hdec. reflexivity. Qed.

Lemma receive_webhook_raised request e :
  request_json json_loads request = inl e →
  receive_webhook json_loads format_object request =
    ([Logging.Record_ Logging.ERROR ("Error processing webhook: " +:+ Py.str e) (Some e)],
     inr (ReturnDict (Py.Dict [("status", Py.Str "error"); ("message", Py.Str (Py.str e))]))).
Proof. intros Hdec. unfold receive_webhook. rewrite Hdec. reflexivity. Qed.

(** Every handler is reached through its route. *)
Lemma path_operation_routes environ query request_body :
  let app := path_operation json_loads format_object environ in
  app (mkRequest GET "/" query request_body) = Some (get_root environ)
  ∧ app (mkRequest GET "/health" query request_body) = Some (get_health environ)
  ∧ app (mkRequest GET "/readiness" query request_body) = Some get_readiness
  ∧ app (mkRequest GET "/webhook" query request_body) = Some (get_webhook environ query)
  ∧ app (mkRequest POST "/webhook" query request_body)
    = Some (post_webhook json_loads format_object
              (mkRequest POST "/webhook" query request_body)).
Proof. repeat split. Qed.

(** C2: whatever the request body, [POST /webhook] answers 200; when
    decoding the body raises, the answer is still 200 and its body
    reports the status ["error"] together with a message. *)
Theorem intake_always_200 (request : Request) :
  status_code (post_webhook json_loads format_object request).1 = 200
  ∧ (∀ e, request_json json_loads request = inl e →
       json_field "status" (post_webhook json_loads format_object request).1
         = Some (Py.Str "error")
       ∧ ∃ message,
           json_field "message" (post_webhook json_loads format_object request).1
             = Some (Py.Str message)).
Proof.
  unfold post_webhook. split.
  - destruct (request_json json_loads request) as [e|payload] eqn:Hdec.
    + by rewrite (receive_webhook_raised _ e).
    + by rewrite (receive_webhook_decoded _ payload).
  - intros e Hdec. rewrite (receive_webhook_raised _ e) by exact Hdec.
    split; [reflexivity | by eexists].
Qed.


(** C10: when decoding the body raises [e], the [message] member of the
    error body is exactly [str(e)]: the text of the exception is sent
    back to the caller unchanged, in the 200 response. *)
Theorem intake_error_message_is_exception_text (request : Request) (e : Py.exn) :
  request_json json_loads request = inl e →
  status_code (post_webhook json_loads format_object request).1 = 200
  ∧ json_field "message" (post_webhook json_loads format_object request).1
    = Some (Py.Str (Py.str e)).
Proof.
  intros Hdec. unfold post_webhook.
  by rewrite (receive_webhook_raised _ e).
Qed.

End IntakeFacts.

Lemma intake_always_200_example :
  status_code (post_webhook Sample.loads Sample.format (Sample.post "oops")).1 = 200
  ∧ json_field "status" (post_webhook Sample.loads Sample.format (Sample.post "oops")).1
    = Some (Py.Str "error")
  ∧ ∃ message,
      json_field "message" (post_webhook Sample.loads Sample.format (Sample.post "oops")).1
        = Some (Py.Str message).
Proof.
  destruct (intake_always_200 Sample.loads Sample.format (Sample.post "oops"))
    as [Hstatus Herror].
  split; [exact Hstatus|].
  apply (Herror (Py.Exn "JSONDecodeError" "Expecting value: line 1 column 1 (char 0)")).
  reflexivity.
Defined.


Lemma intake_error_message_is_exception_text_example :
  status_code (post_webhook Sample.loads Sample.format (Sample.post "oops")).1 = 200
  ∧ json_field "message" (post_webhook Sample.loads Sample.format (Sample.post "oops")).1
    = Some (Py.Str "Expecting value: line 1 column 1 (char 0)").
Proof.
  apply (intake_error_message_is_exception_text Sample.loads Sample.format
           (Sample.post "oops")
           (Py.Exn "JSONDecodeError" "Expecting value: line 1 column 1 (char 0)")).
  reflexivity.
Defined.

(** * Further properties of the handlers *)

(** ** The decision taken by [verify_webhook] *)

(** The whole run of the verification endpoint, branch by branch. *)
Lemma get_webhook_cases (environ query : gmap string string) :
  (Py.truthy (getenv environ TOKEN_VAR) = false
   ∧ get_webhook environ query =
       (not_configured_response,
        [Logging.Record_ Logging.INFO
           ("Webhook verification request: mode=" +:+ Py.fmt (query !! "hub.mode")
            +:+ ", token_provided="
            +:+ Py.fmt_bool (Py.truthy (query !! "hub.verify_token"))) None;
         Logging.Record_ Logging.ERROR "WHATSAPP_WEBHOOK_VERIFY_TOKEN not configured" None]))
  ∨ (Py.truthy (getenv environ TOKEN_VAR) = true
     ∧ query !! "hub.mode" = Some "subscribe"
     ∧ query !! "hub.verify_token" = getenv environ TOKEN_VAR
     ∧ get_webhook environ query =
         (mkResponse 200 "text/plain" (Text (default "" (query !! "hub.challenge"))),
          [Logging.Record_ Logging.INFO
             ("Webhook verification request: mode=" +:+ Py.fmt (query !! "hub.mode")
              +:+ ", token_provided="
              +:+ Py.fmt_bool (Py.truthy (query !! "hub.verify_token"))) None;
           Logging.Record_ Logging.INFO "Webhook verification successful" None]))
  ∨ (Py.truthy (getenv environ TOKEN_VAR) = true
     ∧ (query !! "hub.mode" ≠ Some "subscribe"
        ∨ query !! "hub.verify_token" ≠ getenv environ TOKEN_VAR)
     ∧ get_webhook environ query =
         (verification_failed_response,
          [Logging.Record_ Logging.INFO
             ("Webhook verification request: mode=" +:+ Py.fmt (query !! "hub.mode")
              +:+ ", token_provided="
              +:+ Py.fmt_bool (Py.truthy (query !! "hub.verify_token"))) None;
           Logging.Record_ Logging.WARNING
             ("Webhook verification failed: mode=" +:+ Py.fmt (query !! "hub.mode")
              +:+ ", token_match="
              +:+ Py.fmt_bool (Py.eq (query !! "hub.verify_token")
                                 (getenv environ TOKEN_VAR))) None])).
Proof.
  rewrite get_webhook_unfold.
  destruct (Py.truthy (getenv environ TOKEN_VAR)) eqn:Hcfg.
  - destruct (decide (query !! "hub.mode" = Some "subscribe")) as [Hm|Hm];
      [destruct (decide (query !! "hub.verify_token" = getenv environ TOKEN_VAR)) as [Ht|Ht]|].
    + right. left. repeat (split; [done|]).
      by rewrite verify_webhook_accepted.
    + right. right. split; [done|]. split; [by right|].
      rewrite verify_webhook_rejected; [done | done | by right].
    + right. right. split; [done|]. split; [by left|].
      rewrite verify_webhook_rejected; [done | done | by left].
  - left. split; [done|]. by rewrite verify_webhook_not_configured.
Qed.

(** Case analysis on a verification run: one goal per branch, with the
    run replaced by its outcome. *)
Ltac webhook_cases environ query Hcfg Hm Ht Hne :=
  destruct (get_webhook_cases environ query)
    as [[Hcfg ->] | [(Hcfg & Hm & Ht & ->) | (Hcfg & Hne & ->)]];
  unfold not_configured_response, verification_failed_response, json_field;
  cbn [fst snd status_code media_type body Py.field Py.get].

Lemma truthy_true_iff (o : option string) :
  Py.truthy o = true ↔ ∃ T, o = Some T ∧ T ≠ "".
Proof.
  destruct o as [s|]; simpl.
  - rewrite negb_true_iff, bool_decide_eq_false. split.
    + intros Hs. by exists s.
    + intros (T & [= ->] & HT). exact HT.
  - split; [done | by intros (T & ? & _)].
Qed.

(** X1: the verification endpoint answers 200 exactly when a non-empty
    expected token is configured, the mode is ["subscribe"] and the
    supplied token is that expected token. *)
Theorem webhook_accepts_iff (environ query : gmap string string) :
  status_code (get_webhook environ query).1 = 200
  ↔ ∃ T, getenv environ TOKEN_VAR = Some T ∧ T ≠ ""
         ∧ query !! "hub.mode" = Some "subscribe"
         ∧ query !! "hub.verify_token" = Some T.
Proof.
  webhook_cases environ query Hcfg Hm Ht Hne.
  - split; [done|]. intros (T & Hexp & HT & _).
    rewrite Hexp, truthy_nonempty in Hcfg; done.
  - split; [intros _ | done].
    apply truthy_true_iff in Hcfg as (T & Hexp & HT).
    exists T. rewrite Ht. done.
  - split; [done|]. intros (T & Hexp & HT & Hm & Ht).
    rewrite Hexp in Hne. tauto.
Qed.

(** X2: the verification endpoint answers with 200, 403 or 500 and with
    nothing else, and it answers 500 exactly when the expected token is
    unset or empty: no request can turn a configured service into a 500. *)
Theorem webhook_status_table (environ query : gmap string string) :
  (status_code (get_webhook environ query).1 = 200
   ∨ status_code (get_webhook environ query).1 = 403
   ∨ status_code (get_webhook environ query).1 = 500)
  ∧ (status_code (get_webhook environ query).1 = 500
     ↔ getenv environ TOKEN_VAR = None ∨ getenv environ TOKEN_VAR = Some "").
Proof.
  rewrite <- truthy_false_iff.
  webhook_cases environ query Hcfg Hm Ht Hne; rewrite Hcfg.
  - split; [by right; right | done].
  - split; [by left | done].
  - split; [by right; left | done].
Qed.

(** X3: a request that supplies no token, or an empty one, is never
    answered with 200, in any environment; in particular not when no
    expected token is configured either. *)
Theorem webhook_rejects_absent_token (environ query : gmap string string) :
  query !! "hub.verify_token" = None ∨ query !! "hub.verify_token" = Some "" →
  status_code (get_webhook environ query).1 ≠ 200
  ∧ ∃ message, json_field "detail" (get_webhook environ query).1 = Some (Py.Str message).
Proof.
  intros Hnone. apply truthy_false_iff in Hnone.
  webhook_cases environ query Hcfg Hm Ht Hne.
  - split; [done | by eexists].
  - rewrite Ht, Hcfg in Hnone. done.
  - split; [done | by eexists].
Qed.

Lemma webhook_rejects_absent_token_example :
  status_code (get_webhook empty_environ empty_query).1 ≠ 200
  ∧ ∃ message,
      json_field "detail" (get_webhook empty_environ empty_query).1 = Some (Py.Str message).
Proof.
  apply (webhook_rejects_absent_token empty_environ empty_query).
  left. reflexivity.
Defined.

(** X4: when the mode and the token are right but [hub.challenge] is
    absent, the answer is still 200 in plain text, with an empty body. *)
Theorem webhook_absent_challenge_empty_body
    (environ query : gmap string string) (T : string) :
  getenv environ TOKEN_VAR = Some T →
  T ≠ "" →
  query !! "hub.mode" = Some "subscribe" →
  query !! "hub.verify_token" = Some T →
  query !! "hub.challenge" = None →
  (get_webhook environ query).1 = mkResponse 200 "text/plain" (Text "").
Proof.
  intros Hexp HT Hmode Htok Hch.
  rewrite get_webhook_unfold, Hch, verify_webhook_accepted.
  - reflexivity.
  - rewrite Hexp. by apply truthy_nonempty.
  - exact Hmode.
  - by rewrite Hexp.
Qed.

Lemma webhook_absent_challenge_empty_body_example :
  (get_webhook example_environ query_without_challenge).1
    = mkResponse 200 "text/plain" (Text "").
Proof.
  apply (webhook_absent_challenge_empty_body example_environ query_without_challenge "abc123");
    [reflexivity | discriminate | reflexivity | reflexivity | reflexivity].
Defined.

(** ** What a verification run writes and sends *)

Lemma emitted_cons (root_level : Z) (r : Logging.record) (rs : list Logging.record) :
  Logging.emitted root_level (r :: rs) =
    if bool_decide (root_level ≤ Logging.levelno (Logging.rec_level r))%Z
    then r :: Logging.emitted root_level rs
    else Logging.emitted root_level rs.
Proof.
  unfold Logging.emitted. rewrite filter_cons.
  case_bool_decide; case_decide; done.
Qed.

Lemma emitted_nil (root_level : Z) : Logging.emitted root_level [] = [].
Proof. reflexivity. Qed.

(** How a verification run ends, read off the three branches: the
    tokens enter only through [Py.truthy] and [Py.eq]. *)
Lemma verify_webhook_result environ mode token challenge :
  (verify_webhook environ mode token challenge).2 =
    if negb (Py.truthy (getenv environ TOKEN_VAR)) then
      inl (mkHTTPException 500 "Webhook token not configured")
    else if Py.eq mode (Some "subscribe") && Py.eq token (getenv environ TOKEN_VAR) then
      inr (PlainTextResponse challenge 200)
    else
      inl (mkHTTPException 403 "Verification failed").
Proof.
  unfold TOKEN_VAR, verify_webhook.
  destruct (negb (Py.truthy (getenv environ "WHATSAPP_WEBHOOK_VERIFY_TOKEN"))); [reflexivity|].
  destruct (Py.eq mode (Some "subscribe")
            && Py.eq token (getenv environ "WHATSAPP_WEBHOOK_VERIFY_TOKEN")); reflexivity.
Qed.

Lemma verify_webhook_same_token environ1 environ2 mode token challenge :
  getenv environ1 TOKEN_VAR = getenv environ2 TOKEN_VAR →
  verify_webhook environ1 mode token challenge = verify_webhook environ2 mode token challenge.
Proof. unfold TOKEN_VAR, verify_webhook. intros ->. reflexivity. Qed.

(** X5: every verification run writes exactly two log records, none with
    an exception attached.  The first is at info level; the second is at
    info level exactly when the answer is 200, at warning level exactly
    when it is 403 and at error level exactly when it is 500. *)
Theorem webhook_log_levels (environ query : gmap string string) :
  ∃ first last,
    (get_webhook environ query).2 = [first; last]
    ∧ Logging.rec_level first = Logging.INFO
    ∧ Logging.rec_exc_info first = None
    ∧ Logging.rec_exc_info last = None
    ∧ (Logging.rec_level last = Logging.INFO
       ↔ status_code (get_webhook environ query).1 = 200)
    ∧ (Logging.rec_level last = Logging.WARNING
       ↔ status_code (get_webhook environ query).1 = 403)
    ∧ (Logging.rec_level last = Logging.ERROR
       ↔ status_code (get_webhook environ query).1 = 500).
Proof.
  webhook_cases environ query Hcfg Hm Ht Hne;
    eexists _, _; (split; [reflexivity|]); cbn [Logging.rec_level Logging.rec_exc_info];
    repeat split; done.
Qed.

(** X6: the response of the verification endpoint does not depend on the
    token strings.  Two runs that agree on whether an expected token is
    configured, on whether mode and token were accepted and on the
    challenge send the same response. *)
Theorem webhook_response_independent_of_tokens
    (environ1 environ2 query1 query2 : gmap string string) :
  Py.truthy (getenv environ1 TOKEN_VAR) = Py.truthy (getenv environ2 TOKEN_VAR) →
  Py.eq (query1 !! "hub.mode") (Some "subscribe")
    && Py.eq (query1 !! "hub.verify_token") (getenv environ1 TOKEN_VAR)
  = Py.eq (query2 !! "hub.mode") (Some "subscribe")
    && Py.eq (query2 !! "hub.verify_token") (getenv environ2 TOKEN_VAR) →
  query1 !! "hub.challenge" = query2 !! "hub.challenge" →
  (get_webhook environ1 query1).1 = (get_webhook environ2 query2).1.
Proof.
  intros Hcfg Hacc Hch.
  rewrite !get_webhook_unfold. unfold serve. cbn [fst].
  rewrite !verify_webhook_result, Hcfg, Hacc, Hch. reflexivity.
Qed.

Lemma webhook_response_independent_of_tokens_example :
  (get_webhook example_environ wrong_token_query).1
    = (get_webhook other_environ other_wrong_query).1.
Proof.
  apply (webhook_response_independent_of_tokens
           example_environ other_environ wrong_token_query other_wrong_query);
    reflexivity.
Defined.

(** X7: when the root logger is set above info and not above warning, a
    verification run leaves no log output exactly when it is answered
    with 200: successes are silent, failures and a missing configuration
    are not. *)
Theorem webhook_output_at_warning
    (environ query : gmap string string) (root_level : Z) :
  (20 < root_level)%Z →
  (root_level ≤ 30)%Z →
  Logging.emitted root_level (get_webhook environ query).2 = []
  ↔ status_code (get_webhook environ query).1 = 200.
Proof.
  intros Hlo Hhi.
  webhook_cases environ query Hcfg Hm Ht Hne;
    rewrite !emitted_cons, emitted_nil; cbn [Logging.rec_level Logging.levelno];
    repeat case_bool_decide; try lia; done.
Qed.

Lemma webhook_output_at_warning_example :
  Logging.emitted 30 (get_webhook example_environ wrong_token_query).2 = []
  ↔ status_code (get_webhook example_environ wrong_token_query).1 = 200.
Proof.
  apply (webhook_output_at_warning example_environ wrong_token_query 30); lia.
Defined.

(** X8: the verification endpoint reads nothing but the expected token
    from the environment and nothing but its three parameters from the
    query: two runs that agree on these send the same response and write
    the same log records. *)
Theorem webhook_ignores_the_rest
    (environ1 environ2 query1 query2 : gmap string string) :
  getenv environ1 TOKEN_VAR = getenv environ2 TOKEN_VAR →
  query1 !! "hub.mode" = query2 !! "hub.mode" →
  query1 !! "hub.verify_token" = query2 !! "hub.verify_token" →
  query1 !! "hub.challenge" = query2 !! "hub.challenge" →
  get_webhook environ1 query1 = get_webhook environ2 query2.
Proof.
  intros Hexp Hmode Htok Hch.
  rewrite !get_webhook_unfold, Hmode, Htok, Hch.
  by rewrite (verify_webhook_same_token environ1 environ2).
Qed.

Lemma webhook_ignores_the_rest_example :
  get_webhook staging_environ tagged_query = get_webhook example_environ example_query.
Proof.
  apply (webhook_ignores_the_rest staging_environ example_environ tagged_query example_query);
    reflexivity.
Defined.

(** X9: a request without [hub.mode] and a request whose [hub.mode] is
    the text ["None"] are indistinguishable: same response and same log
    records, whatever the environment and the rest of the query. *)
Theorem webhook_absent_mode_reads_as_None (environ query : gmap string string) :
  get_webhook environ (delete "hub.mode" query)
    = get_webhook environ (<[ "hub.mode" := "None" ]> query).
Proof.
  rewrite !get_webhook_unfold.
  rewrite lookup_delete_eq, lookup_insert_eq.
  rewrite !lookup_delete_ne, !lookup_insert_ne by done.
  unfold verify_webhook.
  destruct (negb (Py.truthy (getenv environ "WHATSAPP_WEBHOOK_VERIFY_TOKEN")));
    reflexivity.
Qed.

(** ** The probes and the environment *)



(** X11: the three probes write no log record, and [GET /] and
    [GET /health] read nothing but [ENVIRONMENT]: two environments that
    agree on it get the same answers, whether or not the verification
    token is configured in them. *)
Theorem probes_read_only_the_label (environ1 environ2 : gmap string string) :
  getenv environ1 "ENVIRONMENT" = getenv environ2 "ENVIRONMENT" →
  get_root environ1 = get_root environ2
  ∧ get_health environ1 = get_health environ2
  ∧ (get_root environ1).2 = []
  ∧ (get_health environ1).2 = []
  ∧ get_readiness.2 = [].
Proof.
  unfold getenv. intros Hlabel.
  unfold get_root, get_health, root, health_check, getenv_or.
  rewrite Hlabel. repeat split.
Qed.

Lemma probes_read_only_the_label_example :
  get_root empty_environ = get_root example_environ
  ∧ get_health empty_environ = get_health example_environ
  ∧ (get_root empty_environ).2 = []
  ∧ (get_health empty_environ).2 = []
  ∧ get_readiness.2 = [].
Proof.
  apply (probes_read_only_the_label empty_environ example_environ). reflexivity.
Defined.

(** ** The intake and the application as a whole *)

Section MoreIntakeFacts.

Context {PyObject : Type}.
Variable json_loads : string → Py.exn + PyObject.
Variable format_object : PyObject → string.

(** The whole run of the intake endpoint, branch by branch. *)
Lemma post_webhook_cases (request : Request) :
  (∃ payload,
     request_json json_loads request = inr payload
     ∧ post_webhook json_loads format_object request =
         (mkResponse 200 "application/json"
            (Json (Py.Dict [("status", Py.Str "received")])),
          [Logging.Record_ Logging.INFO
             ("Received webhook: " +:+ format_object payload) None]))
  ∨ (∃ e,
       request_json json_loads request = inl e
       ∧ post_webhook json_loads format_object request =
           (mkResponse 200 "application/json"
              (Json (Py.Dict [("status", Py.Str "error");
                              ("message", Py.Str (Py.str e))])),
            [Logging.Record_ Logging.ERROR
               ("Error processing webhook: " +:+ Py.str e) (Some e)])).
Proof.
  unfold post_webhook.
  destruct (request_json json_loads request) as [e|payload] eqn:Hdec.
  - right. exists e. split; [done|].
    by rewrite (receive_webhook_raised json_loads format_object request e).
  - left. exists payload. split; [done|].
    by rewrite (receive_webhook_decoded json_loads format_object request payload).
Qed.

(** X12: when decoding the body raises [e], the intake writes exactly one
    log record: at error level, with the text of [e] in its message and
    [e] itself attached for the traceback. *)
Theorem intake_error_is_logged (request : Request) (e : Py.exn) :
  request_json json_loads request = inl e →
  (post_webhook json_loads format_object request).2 =
    [Logging.Record_ Logging.ERROR ("Error processing webhook: " +:+ Py.str e) (Some e)].
Proof.
  intros Hdec.
  destruct (post_webhook_cases request) as [(payload & Hdec' & ->) | (e' & Hdec' & ->)].
  - congruence.
  - rewrite Hdec in Hdec'. by injection Hdec' as <-.
Qed.

(** X13: when the root logger is set above info and not above error, the
    intake leaves no log output exactly when the body decoded: payloads
    are written at info level only, decoding failures are still
    reported. *)
Theorem intake_output_above_info (request : Request) (root_level : Z) :
  (20 < root_level)%Z →
  (root_level ≤ 40)%Z →
  Logging.emitted root_level (post_webhook json_loads format_object request).2 = []
  ↔ ∃ payload, request_json json_loads request = inr payload.
Proof.
  intros Hlo Hhi.
  destruct (post_webhook_cases request) as [(payload & Hdec & ->) | (e & Hdec & ->)];
    cbn [snd]; rewrite emitted_cons, emitted_nil; cbn [Logging.rec_level Logging.levelno];
    case_bool_decide; try lia.
  - split; [by exists payload | done].
  - split; [done|]. intros (payload & Hpayload). congruence.
Qed.


End MoreIntakeFacts.

Lemma intake_error_is_logged_example :
  (post_webhook Sample.loads Sample.format (Sample.post "oops")).2 =
    [Logging.Record_ Logging.ERROR
       "Error processing webhook: Expecting value: line 1 column 1 (char 0)"
       (Some (Py.Exn "JSONDecodeError" "Expecting value: line 1 column 1 (char 0)"))].
Proof.
  apply (intake_error_is_logged Sample.loads Sample.format (Sample.post "oops")
           (Py.Exn "JSONDecodeError" "Expecting value: line 1 column 1 (char 0)")).
  reflexivity.
Defined.

Lemma intake_output_above_info_example :
  Logging.emitted 30 (post_webhook Sample.loads Sample.format (Sample.post "{}")).2 = []
  ↔ ∃ payload, request_json Sample.loads (Sample.post "{}") = inr payload.
Proof.
  apply (intake_output_above_info Sample.loads Sample.format (Sample.post "{}") 30); lia.
Defined.

